(** * Background jobs of openwisp_controller.config.tasks

    A shallow embedding of [openwisp_controller/config/tasks.py]: the
    Celery jobs are functions in a state-and-exception monad over a
    [World] that holds the persistent stores the jobs read and write,
    the log, and the trace of calls made to external collaborators. *)

From Stdlib Require Import ZArith String Ascii List.
From Stdlib.Strings Require Byte.
From stdpp Require Import base gmap strings list fin_maps pretty.

Local Open Scope string_scope.
Local Open Scope Z_scope.
Local Open Scope list_scope.

(** ** Python values and builtins used by the jobs *)

Module Py.

(** Exceptions that can surface in [tasks.py]. *)
Inductive Exc : Type :=
| SoftTimeLimitExceeded
| DoesNotExist              (* subclass of ObjectDoesNotExist *)
| MultipleObjectsReturned
| ValidationError
| KeyError (key : string)
| IndexError
| TypeError
| FileNotFoundError
| OtherError (name : string).

(** [except ObjectDoesNotExist] *)
Definition is_ObjectDoesNotExist (e : Exc) : bool :=
  match e with DoesNotExist => true | _ => false end.

(** [except SoftTimeLimitExceeded] *)
Definition is_SoftTimeLimitExceeded (e : Exc) : bool :=
  match e with SoftTimeLimitExceeded => true | _ => false end.

Inductive Outcome (A : Type) : Type :=
| Returned (a : A)
| Raised (e : Exc).
Arguments Returned {A} a.
Arguments Raised {A} e.

(** Values that travel in [instance_id] and [**kwargs]. *)
Inductive Val : Type :=
| VNone
| VStr (s : string)
| VInt (z : Z)
| VList (ids : list string).

(** [s.startswith(p)] *)
Definition startswith (p s : string) : bool := String.prefix p s.

(** [s.split(sep)] for a one-character separator: never empty, keeps
    empty fields. *)
Fixpoint split (sep : ascii) (s : string) : list string :=
  match s with
  | EmptyString => [EmptyString]
  | String c s' =>
      if Ascii.eqb c sep then EmptyString :: split sep s'
      else match split sep s' with
           | w :: ws => String c w :: ws
           | [] => [String c EmptyString]
           end
  end.

(** The text before and after the first occurrence of [sep], if any. *)
Fixpoint cut (sep : ascii) (s : string) : option (string * string) :=
  match s with
  | EmptyString => None
  | String c s' =>
      if Ascii.eqb c sep then Some (EmptyString, s')
      else match cut sep s' with
           | Some (a, b) => Some (String c a, b)
           | None => None
           end
  end.

(** [s.split(sep, maxsplit=1)] *)
Definition split1 (sep : ascii) (s : string) : list string :=
  match cut sep s with
  | Some (a, b) => [a; b]
  | None => [s]
  end.

(** [l[i]] on a list: IndexError out of range. *)
Definition item {A} (l : list A) (i : nat) : Outcome A :=
  match l !! i with
  | Some x => Returned x
  | None => Raised IndexError
  end.

(** [d[k]] on a dict: KeyError when absent. *)
Definition getitem {V} (d : gmap string V) (k : string) : Outcome V :=
  match d !! k with
  | Some v => Returned v
  | None => Raised (KeyError k)
  end.

(** [d.get(k)] on a dict of values: None when absent. *)
Definition get (d : gmap string Val) (k : string) : Val :=
  default VNone (d !! k).

(** [sub in s] *)
Definition contains (sub s : string) : Prop :=
  ∃ a b, s = a +:+ sub +:+ b.

(** [str(n)] for an int. *)
Definition str_int (n : Z) : string := pretty n.

(** The str ['\n']. *)
Definition newline : string := String (ascii_of_nat 10) EmptyString.

(** [b.split(sep)] for a bytes object [b] and a str [sep]: the argument
    must be bytes-like, so the call raises TypeError whatever [b] and
    [sep] hold. *)
Definition bytes_split_str (b : list Byte.byte) (sep : string)
  : Outcome (list string) :=
  Raised TypeError.

End Py.

Export Py(Outcome, Returned, Raised).

(** ** Stores, log and collaborators *)

(** Primary keys and other identifiers are carried as their text. *)
Abbreviation Pk := string (only parsing).

(** Instants returned by [datetime.now()]. *)
Abbreviation Time := Z (only parsing).

(** The AdoptableDevice model, with the fields in the order the job
    passes them to the constructor:
    [AdoptableDevice(mac, key, os_version, ip, first_seen, last_seen)]. *)
Record AdoptableDevice : Type := mkAdoptableDevice {
  mac_address : string;
  adoption_key : string;
  os_version : string;
  ip : string;
  first_seen : Time;
  last_seen : Time
}.

Definition set_last_seen (now : Time) (d : AdoptableDevice) : AdoptableDevice :=
  {| mac_address := mac_address d; adoption_key := adoption_key d;
     os_version := os_version d; ip := ip d;
     first_seen := first_seen d; last_seen := now |}.

(** The Vpn model: only the [dh] field is written by the jobs. *)
Record Vpn : Type := mkVpn {
  vpn_name : string;
  dh : option string
}.

Definition set_dh (blob : string) (v : Vpn) : Vpn :=
  {| vpn_name := vpn_name v; dh := Some blob |}.

Record Template : Type := mkTemplate {
  template_name : string
}.

Inductive Level : Type := INFO | WARNING | ERROR.

(** One constructor per logging call site; [Text] is used where the
    message is a plain interpolation of strings and numbers. *)
Inductive Message : Type :=
| InvalidAnnouncement (records : gmap string string)
| TemplateLookupFailed (template_pk : Pk) (e : Py.Exc)
| TemplateSoftLimit (template : Template) (template_pk : Pk)
| DhSoftLimit (vpn : Vpn) (vpn_pk : Pk)
| Text (s : string).

Definition LogRecord : Type := Level * Message.

(** Calls that leave the module: model class methods, instance methods
    and the outbound HTTP request. *)
Inductive Call : Type :=
| CheckOutput (args : string)
| UpdateRelatedConfigStatus (template_pk : Pk)
| Dhparam (bits : Z)
| FullClean (vpn_pk : Pk) (vpn : Vpn)
| DeviceChangeInvalidatesCache (instance_id : Py.Val)
| DevicegroupChangeInvalidatesCache (instance_id : Py.Val)
| CertificateChangeInvalidatesCache (instance_id : Py.Val)
| DevicegroupDeleteInvalidatesCache (organization_id : Py.Val)
| CertificateDeleteInvalidatesCache (organization_id common_name : Py.Val)
| InvalidateClientsCache (vpn_pk : Pk)
| RequestsPost (endpoint key : string) (verify : bool)
| ManageDevicesGroupTemplates (device_ids old_group_ids group_id : Py.Val)
| ManageGroupTemplates (group_id old_template_ids template_ids : Py.Val)
| ManageBackendChanged (instance_id old_backend backend : Py.Val)
                       (kwargs : gmap string Py.Val).

Record World : Type := mkWorld {
  adoptable : list AdoptableDevice;   (* AdoptableDevice rows, by row id *)
  templates : gmap Pk Template;
  vpns : gmap Pk Vpn;
  log : list LogRecord;
  calls : list Call;                  (* collaborator calls, oldest first *)
  ticks : nat                         (* readings of the clock so far *)
}.

Definition with_adoptable (rows : list AdoptableDevice) (w : World) : World :=
  mkWorld rows (templates w) (vpns w) (log w) (calls w) (ticks w).
Definition with_vpns (m : gmap Pk Vpn) (w : World) : World :=
  mkWorld (adoptable w) (templates w) m (log w) (calls w) (ticks w).
Definition with_log (l : list LogRecord) (w : World) : World :=
  mkWorld (adoptable w) (templates w) (vpns w) l (calls w) (ticks w).
Definition with_calls (c : list Call) (w : World) : World :=
  mkWorld (adoptable w) (templates w) (vpns w) (log w) c (ticks w).
Definition with_ticks (n : nat) (w : World) : World :=
  mkWorld (adoptable w) (templates w) (vpns w) (log w) (calls w) n.

(** What the surroundings answer: which collaborator calls raise, what
    the value-returning ones return, and the settings the jobs read. *)
Record Collaborators : Type := mkCollaborators {
  clock : nat → Time;                          (* n-th datetime.now() *)
  raises : Call → option Py.Exc;               (* None: returns normally *)
  dh_blob : Z → string;                        (* Vpn.dhparam(bits) *)
  status_code : string → string → bool → Z;    (* response.status_code *)
  DEBUG : bool;                                (* settings.DEBUG *)
  stdout : string → list Byte.byte             (* output of a command *)
}.

(** [Device._meta.model_name] and its siblings. *)
Record ModelNames : Type := mkModelNames {
  device_name : string;
  devicegroup_name : string;
  config_name : string;
  cert_name : string
}.

(** ** The job monad: state plus exceptions; effects made before an
    exception stay in the world. *)

Definition Job (A : Type) : Type := World → Outcome A * World.

Global Instance job_ret : MRet Job := λ A a w, (Returned a, w).

Global Instance job_bind : MBind Job := λ A B f m w,
  match m w with
  | (Returned a, w') => f a w'
  | (Raised e, w') => (Raised e, w')
  end.

Definition raise {A} (e : Py.Exc) : Job A := λ w, (Raised e, w).

(** Lift a pure computation that may raise. *)
Definition lift {A} (o : Outcome A) : Job A := λ w, (o, w).

(** [try: body except <handles> as e: handler(e) else: orelse(result)].
    The [else] suite runs only when [body] raised nothing, and what it
    raises is not handled by the [except] clause.  A handler that ends
    in [return] followed by more statements has the same shape. *)
Definition try_except_else {A B} (body : Job A) (handles : Py.Exc → bool)
    (handler : Py.Exc → Job B) (orelse : A → Job B) : Job B := λ w,
  match body w with
  | (Returned a, w') => orelse a w'
  | (Raised e, w') => if handles e then handler e w' else (Raised e, w')
  end.

(** [try: body except <handles>: handler] *)
Definition try_except {A} (body : Job A) (handles : Py.Exc → bool)
    (handler : Py.Exc → Job A) : Job A :=
  try_except_else body handles handler mret.

(** [for x in l: body(x)] *)
Fixpoint for_each {A} (body : A → Job unit) (l : list A) : Job unit :=
  match l with
  | [] => mret tt
  | x :: l' => body x ≫= λ _, for_each body l'
  end.

Definition logger (lvl : Level) (m : Message) : Job unit := λ w,
  (Returned tt, with_log (log w ++ [(lvl, m)]) w).

Section Jobs.

Variable env : Collaborators.
Variable names : ModelNames.

(** A call to a collaborator: traced, then it returns or raises. *)
Definition invoke (c : Call) : Job unit := λ w,
  let w' := with_calls (calls w ++ [c]) w in
  match raises env c with
  | None => (Returned tt, w')
  | Some e => (Raised e, w')
  end.

(** [datetime.now()] *)
Definition datetime_now : Job Time := λ w,
  (Returned (clock env (ticks w)), with_ticks (S (ticks w)) w).


(** *** Discovery: [reconcile_lines] *)

(** The loop over [antenna[9:]]:
    [t = txt.split('=', maxsplit=1); records[t[0]] = t[1]].
    The right-hand side [t[1]] is evaluated first. *)
Fixpoint parse_txt (txts : list string) (records : gmap string string)
  : Outcome (gmap string string) :=
  match txts with
  | [] => Returned records
  | txt :: rest =>
      let t := Py.split1 "=" txt in
      match Py.item t 1 with
      | Raised e => Raised e
      | Returned v =>
          match Py.item t 0 with
          | Raised e => Raised e
          | Returned k => parse_txt rest (<[k := v]> records)
          end
      end
  end.

(** [records.get('mac') == None or records.get('os_version') == None
     or records.get('version') == None] *)
Definition incomplete (records : gmap string string) : bool :=
  negb (bool_decide (is_Some (records !! "mac")))
  || negb (bool_decide (is_Some (records !! "os_version")))
  || negb (bool_decide (is_Some (records !! "version"))).

(** What [AdoptableDevice.objects.get(ip=...)] hands back to the job:
    the row found (with its row id), or the None the job tests for, or
    an exception.  The model and its manager are not part of the module;
    the job is written against any manager of this shape. *)
Definition Manager : Type :=
  string → list AdoptableDevice → Outcome (option (nat * AdoptableDevice)).

(** Row ids and rows whose [ip] is [addr]. *)
Definition rows_with_ip (addr : string) (rows : list AdoptableDevice)
  : list (nat * AdoptableDevice) :=
  filter (λ p, ip p.2 = addr) (imap pair rows).

(** The manager Django gives every model: [get] returns the single
    match and raises otherwise; it never returns None.  This is the
    behaviour [update_template_related_config_status] handles with
    [except ObjectDoesNotExist] and [create_vpn_dh] lets propagate. *)
Definition django_get : Manager := λ addr rows,
  match rows_with_ip addr rows with
  | [] => Raised Py.DoesNotExist
  | [row] => Returned (Some row)
  | _ :: _ :: _ => Raised Py.MultipleObjectsReturned
  end.

(** Modelled from the spec: the registry gateway of the spec's section 6,
    [find_by_address(addr) -> AdoptableDevice | not-found], which answers
    not-found (None) for an unknown address; it is not in the module and
    serves only for comparison with [django_get]. *)
Definition find_by_address : Manager := λ addr rows,
  match rows_with_ip addr rows with
  | [] => Returned None
  | [row] => Returned (Some row)
  | _ :: _ :: _ => Raised Py.MultipleObjectsReturned
  end.

Variable objects_get : Manager.

Definition AdoptableDevice_objects_get (addr : string)
  : Job (option (nat * AdoptableDevice)) := λ w,
  (objects_get addr (adoptable w), w).

(** [known_adoptable.save()] on a row loaded from the table. *)
Definition save_row (i : nat) (d : AdoptableDevice) : Job unit := λ w,
  (Returned tt, with_adoptable (<[i := d]> (adoptable w)) w).

(** [a.save()] on a freshly constructed instance. *)
Definition save_new (d : AdoptableDevice) : Job unit := λ w,
  (Returned tt, with_adoptable (adoptable w ++ [d]) w).

(** The body of the [for antenna in mdns_response] loop. *)
Definition reconcile (antenna : string) : Job unit :=
  if Py.startswith "=" antenna then
    let antenna := Py.split ";" antenna in
    records ← lift (parse_txt (drop 9 antenna) ∅);
    if incomplete records then
      logger WARNING (InvalidAnnouncement records)   (* then [continue] *)
    else
      now ← datetime_now;
      addr ← lift (Py.item antenna 7);
      known_adoptable ← AdoptableDevice_objects_get addr;
      match known_adoptable with
      | Some (i, d) => save_row i (set_last_seen now d)
      | None =>
          mac ← lift (Py.getitem records "mac");
          osv ← lift (Py.getitem records "os_version");
          addr ← lift (Py.item antenna 7);
          save_new (mkAdoptableDevice mac "key" osv addr now now)
      end
  else mret tt.

(** The [for antenna in mdns_response] loop of lines 25 to 70, for a
    list of str lines. *)
Definition reconcile_lines (mdns_response : list string)
  : Job unit :=
  for_each reconcile mdns_response.

(** The command of line 22, one string. *)
Definition avahi_command : string :=
  "avahi-browse _openwisp-unmanaged._tcp -trp".

(** [subprocess.check_output(args)] with the defaults (no shell, no
    text mode): it raises when the program cannot be started or exits
    with an error, and otherwise returns what the program wrote, as
    bytes. *)
Definition subprocess_check_output (args : string) : Job (list Byte.byte) :=
  invoke (CheckOutput args) ≫= λ _, mret (stdout env args).

(** The job: line 22 obtains [mdns_response] by splitting the bytes that
    [check_output] returns with the str ['\n'], then the loop runs. *)
Definition update_adoptable_antenna_list : Job unit :=
  output ← subprocess_check_output avahi_command;
  mdns_response ← lift (Py.bytes_split_str output Py.newline);
  reconcile_lines mdns_response.

(** *** Template status: [update_template_related_config_status] *)

(** [Template.objects.get(pk=template_pk)]: a primary key names at most
    one row. *)
Definition Template_objects_get (template_pk : Pk) : Job Template := λ w,
  match templates w !! template_pk with
  | Some t => (Returned t, w)
  | None => (Raised Py.DoesNotExist, w)
  end.

Definition update_template_related_config_status (template_pk : Pk)
  : Job unit :=
  try_except_else
    (Template_objects_get template_pk)
    Py.is_ObjectDoesNotExist
    (λ e, logger WARNING (TemplateLookupFailed template_pk e))  (* return *)
    (λ template,
       try_except
         (invoke (UpdateRelatedConfigStatus template_pk))
         Py.is_SoftTimeLimitExceeded
         (λ _, logger ERROR (TemplateSoftLimit template template_pk))).

(** *** DH parameters: [create_vpn_dh] *)

(** [Vpn.objects.get(pk=vpn_pk)] *)
Definition Vpn_objects_get (vpn_pk : Pk) : Job Vpn := λ w,
  match vpns w !! vpn_pk with
  | Some v => (Returned v, w)
  | None => (Raised Py.DoesNotExist, w)
  end.

(** [Vpn.dhparam(bits)] *)
Definition Vpn_dhparam (bits : Z) : Job string :=
  invoke (Dhparam bits) ≫= λ _, mret (dh_blob env bits).

(** [vpn.save()] *)
Definition Vpn_save (vpn_pk : Pk) (vpn : Vpn) : Job unit := λ w,
  (Returned tt, with_vpns (<[vpn_pk := vpn]> (vpns w)) w).

Definition create_vpn_dh (vpn_pk : Pk) : Job unit :=
  vpn ← Vpn_objects_get vpn_pk;
  try_except_else
    (Vpn_dhparam 2048)
    Py.is_SoftTimeLimitExceeded
    (λ _, logger ERROR (DhSoftLimit vpn vpn_pk))
    (λ blob,
       let vpn := set_dh blob vpn in
       _ ← invoke (FullClean vpn_pk vpn);
       Vpn_save vpn_pk vpn).

(** *** Cache invalidation *)

Definition invalidate_devicegroup_cache_change
    (instance_id : Py.Val) (model_name : string) : Job unit :=
  if String.eqb model_name (device_name names) then
    invoke (DeviceChangeInvalidatesCache instance_id)
  else if String.eqb model_name (devicegroup_name names) then
    invoke (DevicegroupChangeInvalidatesCache instance_id)
  else if String.eqb model_name (cert_name names) then
    invoke (CertificateChangeInvalidatesCache instance_id)
  else mret tt.

Definition invalidate_vpn_server_devices_cache_change (vpn_pk : Pk)
  : Job unit :=
  _ ← Vpn_objects_get vpn_pk;
  invoke (InvalidateClientsCache vpn_pk).

Definition invalidate_devicegroup_cache_delete
    (instance_id : Py.Val) (model_name : string)
    (kwargs : gmap string Py.Val) : Job unit :=
  if String.eqb model_name (devicegroup_name names) then
    org ← lift (Py.getitem kwargs "organization_id");
    invoke (DevicegroupDeleteInvalidatesCache org)
  else if String.eqb model_name (cert_name names) then
    org ← lift (Py.getitem kwargs "organization_id");
    cn ← lift (Py.getitem kwargs "common_name");
    invoke (CertificateDeleteInvalidatesCache org cn)
  else mret tt.

(** *** Webhook: [trigger_vpn_server_endpoint] *)

(** [requests.post(endpoint, params={'key': auth_token}, verify=...)]:
    a network-level failure raises, otherwise the response's status code
    is what the job reads. *)
Definition requests_post (endpoint key : string) (verify : bool) : Job Z :=
  invoke (RequestsPost endpoint key verify) ≫= λ _,
  mret (status_code env endpoint key verify).

Definition trigger_vpn_server_endpoint
    (endpoint auth_token vpn_id : string) : Job unit :=
  response_status_code ←
    requests_post endpoint auth_token (if DEBUG env then false else true);
  if response_status_code =? 200 then
    logger INFO
      (Text ("Triggered update webhook of VPN Server UUID: " +:+ vpn_id))
  else
    logger ERROR
      (Text ("Failed to update VPN Server configuration. "
             +:+ "Response status code: "
             +:+ Py.str_int response_status_code +:+ ", "
             +:+ "VPN Server UUID: " +:+ vpn_id)).

(** *** Template cascade: [change_devices_templates] *)

(** [kwargs.pop(k)]: the value and the dict without the key. *)
Definition pop (kwargs : gmap string Py.Val) (k : string)
  : Outcome (Py.Val * gmap string Py.Val) :=
  match kwargs !! k with
  | Some v => Returned (v, delete k kwargs)
  | None => Raised (Py.KeyError k)
  end.

Definition change_devices_templates
    (instance_id : Py.Val) (model_name : string)
    (kwargs : gmap string Py.Val) : Job unit :=
  if String.eqb model_name (device_name names) then
    invoke (ManageDevicesGroupTemplates instance_id
              (Py.get kwargs "old_group_id") (Py.get kwargs "group_id"))
  else if String.eqb model_name (devicegroup_name names) then
    invoke (ManageGroupTemplates instance_id
              (Py.get kwargs "old_templates") (Py.get kwargs "templates"))
  else if String.eqb model_name (config_name names) then
    '(old_backend, kwargs) ← lift (pop kwargs "old_backend");
    '(backend, kwargs) ← lift (pop kwargs "backend");
    invoke (ManageBackendChanged instance_id old_backend backend kwargs)
  else mret tt.

End Jobs.

(** ** Concrete surroundings for examples *)

(** Collaborators that never raise, a clock that counts readings, and a
    server that answers 200. *)
Definition quiet : Collaborators :=
  mkCollaborators (λ n, Z.of_nat n) (λ _, None) (λ _, "dhparams")
                  (λ _ _ _, 200) false (λ _, []).

(** The names Django derives from the class names. *)
Definition django_names : ModelNames :=
  mkModelNames "device" "devicegroup" "config" "cert".

Definition empty_world : World := mkWorld [] ∅ ∅ [] [] 0.

(** ** Example data and predicates used in the statements *)

(** A resolved line whose TXT fields parse to [records] holding all of
    mac, os_version and version, and whose field 7 is [addr]. *)
Record valid_announcement (line : string) (records : gmap string string)
    (addr : string) : Prop := mkValid {
  va_resolved : Py.startswith "=" line = true;
  va_parsed : parse_txt (drop 9 (Py.split ";" line)) ∅ = Returned records;
  va_complete : incomplete records = false;
  va_addr : Py.split ";" line !! 7%nat = Some addr
}.

(** An announcement with all three keys, address in field 7. *)
Definition announcement : string :=
  "=;eth0;IPv4;host;local;;;10.0.0.5;1234;mac=AA:BB:CC:DD:EE:FF;os_version=1.2;version=3.0".

(** The same announcement with a TXT flag that carries no '='. *)
Definition announcement_with_flag : string :=
  "=;eth0;IPv4;host;local;;;10.0.0.5;1234;mac=AA:BB:CC:DD:EE:FF;os_version=1.2;novalue".

(** An announcement with all three keys, followed by a TXT flag that
    carries no '='. *)
Definition announcement_complete_with_flag : string :=
  "=;eth0;IPv4;host;local;;;10.0.0.5;1234;mac=AA:BB:CC:DD:EE:FF;os_version=1.2;version=3.0;novalue".

(** A well-formed announcement that lacks the version key. *)
Definition announcement_without_version : string :=
  "=;eth0;IPv4;host;local;;;10.0.0.6;1234;mac=AA:BB:CC:DD:EE:00;os_version=1.2".

Definition announcement_records : gmap string string :=
  <["version" := "3.0"]> (<["os_version" := "1.2"]> (<["mac" := "AA:BB:CC:DD:EE:FF"]> ∅)).

Definition known_device : AdoptableDevice :=
  mkAdoptableDevice "AA:BB:CC:DD:EE:FF" "key" "1.2" "10.0.0.5" 3 4.

Definition world_with_known_device : World :=
  mkWorld [known_device] ∅ ∅ [] [] 7.

Definition template_world : World :=
  mkWorld [] {["t1" := mkTemplate "radio"]} ∅ [] [] 0.

Definition vpn_world : World :=
  mkWorld [] ∅ {["v1" := mkVpn "office" None]} [] [] 0.

(** Collaborators whose DH generation hits the soft time limit. *)
Definition slow_dh : Collaborators :=
  mkCollaborators (λ n, Z.of_nat n)
    (λ c, match c with Dhparam _ => Some Py.SoftTimeLimitExceeded | _ => None end)
    (λ _, "dhparams") (λ _ _ _, 200) false (λ _, []).

(** Collaborators whose validation rejects the Vpn. *)
Definition strict_clean : Collaborators :=
  mkCollaborators (λ n, Z.of_nat n)
    (λ c, match c with FullClean _ _ => Some Py.ValidationError | _ => None end)
    (λ _, "dhparams") (λ _ _ _, 200) false (λ _, []).

(** A server that answers 503. *)
Definition unavailable : Collaborators :=
  mkCollaborators (λ n, Z.of_nat n) (λ _, None) (λ _, "dhparams")
                  (λ _ _ _, 503) false (λ _, []).

(** The three kinds the cascade manager tells apart have different
    names. *)
Definition cascade_names_distinct (names : ModelNames) : Prop :=
  device_name names ≠ devicegroup_name names
  ∧ device_name names ≠ config_name names
  ∧ devicegroup_name names ≠ config_name names.

Definition backend_kwargs : gmap string Py.Val :=
  <["old_backend" := Py.VStr "netjsonconfig.OpenWrt"]>
    (<["backend" := Py.VStr "netjsonconfig.OpenWisp"]>
       (<["reason" := Py.VStr "edit"]> ∅)).

(** Everything of a row except [last_seen]. *)
Definition identity_of (d : AdoptableDevice)
  : string * string * string * string * Time :=
  (mac_address d, adoption_key d, os_version d, ip d, first_seen d).

(** Collaborators whose recompute operation hits the soft time limit. *)
Definition slow_recompute : Collaborators :=
  mkCollaborators (λ n, Z.of_nat n)
    (λ c, match c with
          | UpdateRelatedConfigStatus _ => Some Py.SoftTimeLimitExceeded
          | _ => None
          end)
    (λ _, "dhparams") (λ _ _ _, 200) false (λ _, []).

(** Collaborators that all fail with a database error. *)
Definition broken : Collaborators :=
  mkCollaborators (λ n, Z.of_nat n)
    (λ _, Some (Py.OtherError "OperationalError"))
    (λ _, "dhparams") (λ _ _ _, 200) true (λ _, []).

(** The kinds the cache invalidators tell apart have different names. *)
Definition cache_names_distinct (names : ModelNames) : Prop :=
  device_name names ≠ devicegroup_name names
  ∧ device_name names ≠ cert_name names
  ∧ devicegroup_name names ≠ cert_name names.

(** The persistent tables, the log and the clock are the same in both
    worlds; only the call trace may differ. *)
Definition same_stores (w w' : World) : Prop :=
  adoptable w' = adoptable w ∧ templates w' = templates w
  ∧ vpns w' = vpns w ∧ log w' = log w ∧ ticks w' = ticks w.

Definition cert_kwargs : gmap string Py.Val :=
  <["organization_id" := Py.VStr "org1"]>
    (<["common_name" := Py.VStr "ap-17"]> ∅).

(** ** The builtins on examples *)

Example split_fields :
  Py.split ";" "=;eth0;;10.0.0.5" = ["="; "eth0"; ""; "10.0.0.5"].
Proof. reflexivity. Qed.

Example split1_first_only : Py.split1 "=" "k=v=w" = ["k"; "v=w"].
Proof. reflexivity. Qed.

Example split1_no_separator : Py.split1 "=" "flag" = ["flag"].
Proof. reflexivity. Qed.

Example str_int_503 : Py.str_int 503 = "503".
Proof. reflexivity. Qed.

(** ** Facts about the monad and the stores *)

Lemma for_each_cons {A} (body : A → Job unit) (x : A) (l : list A) (w w' : World) :
  body x w = (Returned tt, w') →
  for_each body (x :: l) w = for_each body l w'.
Proof. intros H. cbn. unfold mbind, job_bind. by rewrite H. Qed.

Lemma for_each_app {A} (body : A → Job unit) (l1 l2 : list A) (w w' : World) :
  for_each body l1 w = (Returned tt, w') →
  for_each body (l1 ++ l2) w = for_each body l2 w'.
Proof.
  revert w. induction l1 as [|x l1 IH]; intros w H.
  - cbn in H. by injection H as ->.
  - cbn in *. unfold mbind, job_bind in *.
    destruct (body x w) as [[[]|e] w1]; [by apply IH|done].
Qed.

Lemma for_each_raise {A} (body : A → Job unit) (x : A) (l : list A) (w w' : World) e :
  body x w = (Raised e, w') →
  for_each body (x :: l) w = (Raised e, w').
Proof. intros H. cbn. unfold mbind, job_bind. by rewrite H. Qed.

Lemma rows_with_ip_none_from (g : nat → nat) (addr : string) (rows : list AdoptableDevice) :
  (∀ j d, rows !! j = Some d → ip d ≠ addr) →
  filter (λ p : nat * AdoptableDevice, ip p.2 = addr)
         (imap (λ j d, (g j, d)) rows) = [].
Proof.
  revert g. induction rows as [|x rows IH]; intros g Hno; [done|].
  rewrite imap_cons, filter_cons. cbn [snd].
  destruct (decide (ip x = addr)) as [Hx|Hx].
  - by destruct (Hno 0%nat x eq_refl).
  - apply (IH (g ∘ S)). intros j d Hj. exact (Hno (S j) d Hj).
Qed.

Lemma rows_with_ip_unique_from (g : nat → nat) (addr : string)
    (rows : list AdoptableDevice) (i : nat) (d : AdoptableDevice) :
  rows !! i = Some d → ip d = addr →
  (∀ j d', rows !! j = Some d' → ip d' = addr → j = i) →
  filter (λ p : nat * AdoptableDevice, ip p.2 = addr)
         (imap (λ j d, (g j, d)) rows) = [(g i, d)].
Proof.
  revert g i. induction rows as [|x rows IH]; intros g i Hi Hd Huniq; [done|].
  rewrite imap_cons, filter_cons. cbn [snd]. destruct i as [|i].
  - injection Hi as ->. rewrite decide_True by done. f_equal.
    apply (rows_with_ip_none_from (g ∘ S)). intros j d' Hj Hip.
    by specialize (Huniq (S j) d' Hj Hip).
  - rewrite decide_False.
    + apply (IH (g ∘ S) i Hi Hd). intros j d' Hj Hip.
      specialize (Huniq (S j) d' Hj Hip). lia.
    + intros Hx. by specialize (Huniq 0%nat x eq_refl Hx).
Qed.

(** No row has the address: the table has no match. *)
Lemma rows_with_ip_none (addr : string) (rows : list AdoptableDevice) :
  (∀ j d, rows !! j = Some d → ip d ≠ addr) →
  rows_with_ip addr rows = [].
Proof. apply (rows_with_ip_none_from id). Qed.

(** Exactly one row has the address: that row is the only match. *)
Lemma rows_with_ip_unique (addr : string) (rows : list AdoptableDevice)
    (i : nat) (d : AdoptableDevice) :
  rows !! i = Some d → ip d = addr →
  (∀ j d', rows !! j = Some d' → ip d' = addr → j = i) →
  rows_with_ip addr rows = [(i, d)].
Proof. apply (rows_with_ip_unique_from id). Qed.

(** Django's [get] never answers None. *)
Lemma django_get_never_none (addr : string) (rows : list AdoptableDevice) :
  django_get addr rows ≠ Returned None.
Proof.
  unfold django_get. by destruct (rows_with_ip addr rows) as [|? [|? ?]].
Qed.

(** Parsing no TXT field leaves the dict as it was. *)
Lemma parse_txt_nil (records : gmap string string) :
  parse_txt [] records = Returned records.
Proof. done. Qed.

(** A field with a '=' contributes its key and the text after the first
    '='. *)
Lemma parse_txt_cons_cut (txt k v : string) (rest : list string)
    (records : gmap string string) :
  Py.cut "=" txt = Some (k, v) →
  parse_txt (txt :: rest) records = parse_txt rest (<[k := v]> records).
Proof. intros H. cbn. unfold Py.split1. by rewrite H. Qed.

(** A field without '=' makes [t[1]] raise IndexError. *)
Lemma parse_txt_cons_no_cut (txt : string) (rest : list string)
    (records : gmap string string) :
  Py.cut "=" txt = None →
  parse_txt (txt :: rest) records = Raised Py.IndexError.
Proof. intros H. cbn. unfold Py.split1. by rewrite H. Qed.

(** As soon as one field has no '=', parsing raises IndexError. *)
Lemma parse_txt_flag_raises (txts : list string) (records : gmap string string) :
  Exists (λ txt, Py.cut "=" txt = None) txts →
  parse_txt txts records = Raised Py.IndexError.
Proof.
  intros H. revert records. induction H as [txt rest Hc|txt rest _ IH]; intros records.
  - by apply parse_txt_cons_no_cut.
  - destruct (Py.cut "=" txt) as [[k v]|] eqn:Hc.
    + rewrite (parse_txt_cons_cut _ _ _ _ _ Hc). apply IH.
    + by apply parse_txt_cons_no_cut.
Qed.

(** When every field has a '=', parsing returns. *)
Lemma parse_txt_total (txts : list string) (records : gmap string string) :
  Forall (λ txt, is_Some (Py.cut "=" txt)) txts →
  ∃ records', parse_txt txts records = Returned records'.
Proof.
  intros H. revert records. induction H as [|txt rest [[k v] Hc] _ IH]; intros records.
  - by eexists.
  - rewrite (parse_txt_cons_cut _ _ _ _ _ Hc). apply IH.
Qed.

(** ** Discovery reconciler *)

Lemma incomplete_false (records : gmap string string) :
  incomplete records = false ↔
  is_Some (records !! "mac") ∧ is_Some (records !! "os_version")
  ∧ is_Some (records !! "version").
Proof.
  unfold incomplete. rewrite !orb_false_iff, !negb_false_iff, !bool_decide_eq_true.
  tauto.
Qed.

(** A line with all three keys has at least ten fields, so field 7 is
    there: the address of a valid line always exists. *)
Lemma complete_has_address (line : string) (records : gmap string string) :
  parse_txt (drop 9 (Py.split ";" line)) ∅ = Returned records →
  incomplete records = false →
  is_Some (Py.split ";" line !! 7%nat).
Proof.
  intros Hp Hc. apply lookup_lt_is_Some.
  destruct (decide (7 < length (Py.split ";" line))%nat) as [|Hn]; [done|].
  rewrite drop_ge in Hp by lia. injection Hp as <-.
  apply incomplete_false in Hc as [[? Hm] _]. by rewrite lookup_empty in Hm.
Qed.

Section Discovery.

Variable env : Collaborators.
Variable objects_get : Manager.

(** Up to the lookup, a valid line is handled the same way whatever the
    manager: the clock is read once and the manager is asked for field 7. *)
Lemma reconcile_valid (line : string) (records : gmap string string)
    (addr : string) (w : World) :
  valid_announcement line records addr →
  reconcile env objects_get line w =
    let now := clock env (ticks w) in
    let w1 := with_ticks (S (ticks w)) w in
    match objects_get addr (adoptable w) with
    | Raised e => (Raised e, w1)
    | Returned (Some (i, d)) => save_row i (set_last_seen now d) w1
    | Returned None =>
        match records !! "mac", records !! "os_version" with
        | Some mac, Some osv =>
            save_new (mkAdoptableDevice mac "key" osv addr now now) w1
        | None, _ => (Raised (Py.KeyError "mac"), w1)
        | Some _, None => (Raised (Py.KeyError "os_version"), w1)
        end
    end.
Proof.
  intros [Hr Hp Hc Ha]. unfold reconcile. rewrite Hr. cbn zeta.
  unfold mbind, job_bind, lift. rewrite Hp, Hc.
  unfold datetime_now, AdoptableDevice_objects_get, Py.item. rewrite Ha.
  cbn [adoptable with_ticks].
  destruct (objects_get addr (adoptable w)) as [[[i d]|]|e]; [done| |done].
  apply incomplete_false in Hc as ([mac Hm] & [osv Ho] & _).
  unfold Py.getitem. by rewrite Hm, Ho.
Qed.

(** A resolved line whose fields all parse but which lacks one of the
    three keys is logged and skipped; nothing else changes. *)
Lemma reconcile_incomplete (line : string) (records : gmap string string)
    (w : World) :
  Py.startswith "=" line = true →
  parse_txt (drop 9 (Py.split ";" line)) ∅ = Returned records →
  incomplete records = true →
  reconcile env objects_get line w =
    (Returned tt, with_log (log w ++ [(WARNING, InvalidAnnouncement records)]) w).
Proof.
  intros Hr Hp Hc. unfold reconcile. rewrite Hr. cbn zeta.
  unfold mbind, job_bind, lift. by rewrite Hp, Hc.
Qed.

(** A resolved line with a TXT field that the parser cannot index raises
    before the completeness test: no warning, no write. *)
Lemma reconcile_parse_raises (line : string) (e : Py.Exc) (w : World) :
  Py.startswith "=" line = true →
  parse_txt (drop 9 (Py.split ";" line)) ∅ = Raised e →
  reconcile env objects_get line w = (Raised e, w).
Proof.
  intros Hr Hp. unfold reconcile. rewrite Hr. cbn zeta.
  unfold mbind, job_bind, lift. by rewrite Hp.
Qed.

(** Lines that are not marked resolved are ignored. *)
Lemma reconcile_unresolved (line : string) (w : World) :
  Py.startswith "=" line = false →
  reconcile env objects_get line w = (Returned tt, w).
Proof. intros Hr. unfold reconcile. by rewrite Hr. Qed.

End Discovery.

(** With Django's manager, a valid line for an address without a row
    stops the job at the lookup: DoesNotExist, and the table is as it
    was. *)
Lemma reconcile_unknown_django (env : Collaborators) (line : string)
    (records : gmap string string) (addr : string) (w : World) :
  valid_announcement line records addr →
  (∀ j d, adoptable w !! j = Some d → ip d ≠ addr) →
  reconcile env django_get line w
  = (Raised Py.DoesNotExist, with_ticks (S (ticks w)) w).
Proof.
  intros Hv Hno. rewrite (reconcile_valid _ _ _ _ _ _ Hv). cbn zeta.
  unfold django_get. by rewrite (rows_with_ip_none _ _ Hno).
Qed.

(** With a gateway that answers not-found, the same line appends exactly
    one row carrying the parsed mac and os_version, the address and the
    key ['key']. *)
Lemma reconcile_unknown_gateway (env : Collaborators) (line : string)
    (records : gmap string string) (addr mac osv : string) (w : World) :
  valid_announcement line records addr →
  records !! "mac" = Some mac → records !! "os_version" = Some osv →
  (∀ j d, adoptable w !! j = Some d → ip d ≠ addr) →
  let now := clock env (ticks w) in
  reconcile env find_by_address line w
  = (Returned tt,
     with_adoptable (adoptable w ++ [mkAdoptableDevice mac "key" osv addr now now])
                    (with_ticks (S (ticks w)) w)).
Proof.
  intros Hv Hm Ho Hno. rewrite (reconcile_valid _ _ _ _ _ _ Hv). cbn zeta.
  unfold find_by_address. rewrite (rows_with_ip_none _ _ Hno).
  by rewrite Hm, Ho.
Qed.

Lemma announcement_valid :
  valid_announcement announcement announcement_records "10.0.0.5".
Proof. split; by vm_compute. Qed.

(** Line 22 ends every run of the job: either [check_output] raises, or
    it returns bytes and splitting them with a str raises TypeError.  The
    loop is not reached; the only trace is the call to [check_output]. *)
Lemma update_adoptable_antenna_list_raises (env : Collaborators)
    (get : Manager) (w : World) :
  update_adoptable_antenna_list env get w
  = (Raised (default Py.TypeError (raises env (CheckOutput avahi_command))),
     with_calls (calls w ++ [CheckOutput avahi_command]) w).
Proof.
  unfold update_adoptable_antenna_list, subprocess_check_output, invoke,
    mbind, job_bind, lift.
  by destruct (raises env (CheckOutput avahi_command)).
Qed.

(** C1 (the code departs from the claim): the loop, run over a valid
    resolved line whose address has no row, creates no AdoptableDevice.
    The lookup [AdoptableDevice.objects.get(ip=...)] raises DoesNotExist,
    the loop stops there, and the table is still empty.  The job itself
    stops earlier, at line 22, and creates nothing either. *)
Theorem C1_unknown_address_creates_nothing :
  reconcile_lines quiet django_get [announcement] empty_world
  = (Raised Py.DoesNotExist, with_ticks 1 empty_world)
  ∧ adoptable (reconcile_lines quiet django_get
                 [announcement] empty_world).2 = []
  ∧ ∀ env get,
      (update_adoptable_antenna_list env get empty_world).1 ≠ Returned tt
      ∧ adoptable (update_adoptable_antenna_list env get empty_world).2 = [].
Proof.
  split; [by vm_compute|]. split; [by vm_compute|].
  intros env get. by rewrite update_adoptable_antenna_list_raises.
Qed.

(** C2 (the code departs from the claim): a resolved line whose TXT
    fields lack the version key, one of them being a flag without '=',
    raises IndexError while the fields are parsed.  No warning is logged
    and the next line, which would have been logged and skipped, is never
    looked at.  The job itself stops earlier, at line 22, with an
    exception and an empty log. *)
Theorem C2_txt_field_without_equals_raises :
  reconcile_lines quiet django_get
    [announcement_with_flag; announcement_without_version] empty_world
  = (Raised Py.IndexError, empty_world)
  ∧ ∀ env get,
      (update_adoptable_antenna_list env get empty_world).1 ≠ Returned tt
      ∧ log (update_adoptable_antenna_list env get empty_world).2 = [].
Proof.
  split; [by vm_compute|].
  intros env get. by rewrite update_adoptable_antenna_list_raises.
Qed.

(** The same happens for every resolved line with such a field, in any
    world and with any manager: the loop stops at that line with
    IndexError and the world is as the lines before left it. *)
Lemma flag_field_aborts_run (env : Collaborators) (get : Manager)
    (line : string) (rest : list string) (w : World) :
  Py.startswith "=" line = true →
  Exists (λ txt, Py.cut "=" txt = None) (drop 9 (Py.split ";" line)) →
  reconcile_lines env get (line :: rest) w
  = (Raised Py.IndexError, w).
Proof.
  intros Hr Hflag. apply for_each_raise, reconcile_parse_raises; [done|].
  by apply parse_txt_flag_raises.
Qed.

(** The behaviour the claim describes does hold for lines whose TXT
    fields all contain a '=': the warning is logged, no row is written
    and the loop goes on with the next line. *)
Lemma incomplete_line_logged_and_skipped (env : Collaborators)
    (get : Manager) (line : string) (rest : list string) (w : World) :
  Py.startswith "=" line = true →
  Forall (λ txt, is_Some (Py.cut "=" txt)) (drop 9 (Py.split ";" line)) →
  (∀ records, parse_txt (drop 9 (Py.split ";" line)) ∅ = Returned records →
              incomplete records = true) →
  ∃ records,
    reconcile_lines env get (line :: rest) w
    = reconcile_lines env get rest
        (with_log (log w ++ [(WARNING, InvalidAnnouncement records)]) w).
Proof.
  intros Hr Hall Hinc.
  destruct (parse_txt_total _ ∅ Hall) as [records Hp].
  exists records. apply for_each_cons.
  apply reconcile_incomplete; auto.
Qed.

Example incomplete_line_example :
  reconcile_lines quiet django_get
    [announcement_without_version] empty_world
  = (Returned tt,
     with_log [(WARNING, InvalidAnnouncement
                 (<["os_version" := "1.2"]> (<["mac" := "AA:BB:CC:DD:EE:00"]> ∅)))]
              empty_world).
Proof. by vm_compute. Qed.

(** What the loop does for a known address when every TXT field of the
    line parses: for a valid resolved line whose address has exactly one row,
    the loop returns normally, that row's last_seen becomes the clock
    reading and the row is written back; its mac_address, adoption_key,
    os_version, ip and first_seen keep their values, the table has as
    many rows as before, every other row is untouched, and the address
    still has that single row.  The same holds when the line is reached
    after other lines of the loop, and the loop then goes on with the
    lines that follow. *)
Lemma known_address_refreshes_last_seen (env : Collaborators)
    (line : string) (records : gmap string string) (addr : string)
    (i : nat) (d : AdoptableDevice) (w : World) :
  valid_announcement line records addr →
  adoptable w !! i = Some d →
  ip d = addr →
  (∀ j d', adoptable w !! j = Some d' → ip d' = addr → j = i) →
  let now := clock env (ticks w) in
  ∃ w',
    reconcile_lines env django_get [line] w = (Returned tt, w')
    ∧ (∀ before rest w0,
         reconcile_lines env django_get before w0
         = (Returned tt, w) →
         reconcile_lines env django_get
           (before ++ line :: rest) w0
         = reconcile_lines env django_get rest w')
    ∧ adoptable w' !! i
      = Some (mkAdoptableDevice (mac_address d) (adoption_key d)
                (os_version d) (ip d) (first_seen d) now)
    ∧ length (adoptable w') = length (adoptable w)
    ∧ (∀ j, j ≠ i → adoptable w' !! j = adoptable w !! j)
    ∧ rows_with_ip addr (adoptable w') = [(i, set_last_seen now d)]
    ∧ log w' = log w.
Proof.
  intros Hv Hi Hd Huniq now.
  pose proof (lookup_lt_Some _ _ _ Hi) as Hlt.
  assert (Hrec : reconcile env django_get line w
          = (Returned tt,
             with_adoptable (<[i := set_last_seen now d]> (adoptable w))
                            (with_ticks (S (ticks w)) w))).
  { rewrite (reconcile_valid _ _ _ _ _ _ Hv). cbn zeta.
    unfold django_get. by rewrite (rows_with_ip_unique _ _ _ _ Hi Hd Huniq). }
  eexists. split; [|split; [|split; [|split; [|split; [|split]]]]].
  - unfold reconcile_lines.
    rewrite (for_each_cons _ _ _ _ _ Hrec). reflexivity.
  - intros before rest w0 Hbefore. unfold reconcile_lines.
    rewrite (for_each_app _ _ _ _ _ Hbefore). apply for_each_cons, Hrec.
  - cbn. by rewrite list_lookup_insert_eq.
  - cbn. apply length_insert.
  - intros j Hj. cbn. by rewrite list_lookup_insert_ne.
  - cbn. apply rows_with_ip_unique.
    + by rewrite list_lookup_insert_eq.
    + done.
    + intros j d' Hj Hip. destruct (decide (j = i)) as [|Hne]; [done|].
      rewrite list_lookup_insert_ne in Hj by done. eauto.
  - done.
Qed.

Lemma known_address_refreshes_last_seen_example :
  ∃ w',
    reconcile_lines quiet django_get [announcement]
      world_with_known_device = (Returned tt, w')
    ∧ adoptable w' = [mkAdoptableDevice "AA:BB:CC:DD:EE:FF" "key" "1.2" "10.0.0.5" 3 7].
Proof.
  destruct (known_address_refreshes_last_seen quiet announcement
              announcement_records "10.0.0.5" 0 known_device
              world_with_known_device announcement_valid eq_refl eq_refl)
    as (w' & Hrun & _).
  - intros [|j] d' Hj Hip; [done|]. by destruct j.
  - exists w'. split; [exact Hrun|].
    vm_compute in Hrun. by injection Hrun as <-.
Defined.

(** C3 (the code departs from the claim): a resolved line carries mac,
    os_version and version, its field 7 is the address of the one row of
    the table, and one more TXT field has no '='.  The loop raises
    IndexError while the fields are parsed and the row's last_seen keeps
    its value.  The job itself, whatever avahi-browse answers, stops at
    line 22 with an exception and the row as it was. *)
Theorem C3_known_address_not_refreshed :
  Py.startswith "=" announcement_complete_with_flag = true
  ∧ drop 9 (Py.split ";" announcement_complete_with_flag)
    = ["mac=AA:BB:CC:DD:EE:FF"; "os_version=1.2"; "version=3.0"; "novalue"]
  ∧ Py.split ";" announcement_complete_with_flag !! 7%nat = Some (ip known_device)
  ∧ reconcile_lines quiet django_get [announcement_complete_with_flag]
      world_with_known_device
    = (Raised Py.IndexError, world_with_known_device)
  ∧ ∀ env get,
      (update_adoptable_antenna_list env get world_with_known_device).1
      ≠ Returned tt
      ∧ adoptable (update_adoptable_antenna_list env get
                     world_with_known_device).2 = [known_device].
Proof.
  split; [by vm_compute|]. split; [by vm_compute|]. split; [by vm_compute|].
  split; [by vm_compute|].
  intros env get. by rewrite update_adoptable_antenna_list_raises.
Qed.

(** ** Template status propagator *)

(** C4: when the identifier names no Template the job logs one warning
    and returns normally without any call to the recompute operation;
    when it names one, the recompute operation is called exactly once,
    whatever that call does. *)
Theorem C4_template_status_propagator (env : Collaborators)
    (template_pk : Pk) (w : World) :
  (templates w !! template_pk = None →
     update_template_related_config_status env template_pk w
     = (Returned tt,
        with_log (log w ++ [(WARNING,
                   TemplateLookupFailed template_pk Py.DoesNotExist)]) w)
     ∧ calls (update_template_related_config_status env template_pk w).2
       = calls w)
  ∧ (∀ t, templates w !! template_pk = Some t →
       calls (update_template_related_config_status env template_pk w).2
       = calls w ++ [UpdateRelatedConfigStatus template_pk]).
Proof.
  unfold update_template_related_config_status, try_except, try_except_else,
    Template_objects_get.
  split.
  - intros ->. by cbn.
  - intros t ->. unfold invoke.
    destruct (raises env _) as [e|]; [|done].
    by destruct e.
Qed.

Lemma C4_template_status_witness :
  (update_template_related_config_status quiet "nope" template_world
   = (Returned tt,
      with_log [(WARNING, TemplateLookupFailed "nope" Py.DoesNotExist)]
               template_world))
  ∧ calls (update_template_related_config_status quiet "t1" template_world).2
    = [UpdateRelatedConfigStatus "t1"].
Proof.
  split.
  - exact (proj1 (proj1 (C4_template_status_propagator quiet "nope"
                           template_world) eq_refl)).
  - exact (proj2 (C4_template_status_propagator quiet "t1" template_world)
             (mkTemplate "radio") eq_refl).
Defined.

(** What the job answers for an existing template: a soft time limit
    raised by the recompute operation is logged and swallowed, any other
    exception propagates. *)
Lemma template_status_outcome (env : Collaborators) (template_pk : Pk)
    (t : Template) (w : World) :
  templates w !! template_pk = Some t →
  (update_template_related_config_status env template_pk w).1
  = match raises env (UpdateRelatedConfigStatus template_pk) with
    | None | Some Py.SoftTimeLimitExceeded => Returned tt
    | Some e => Raised e
    end.
Proof.
  intros Ht.
  unfold update_template_related_config_status, try_except, try_except_else,
    Template_objects_get, invoke.
  rewrite Ht. destruct (raises env _) as [e|]; [|done]. by destruct e.
Qed.

(** ** VPN parameter generator *)

(** C5: for an existing Vpn, when DH generation raises the soft time
    limit the job logs it and returns; the only collaborator call is the
    generation itself (no validation), the Vpn table is as it was, so a
    dh that was unset is still unset.  More generally, whenever the
    generation raises, neither validation nor save happens. *)
Theorem C5_dh_timeout_leaves_vpn (env : Collaborators) (vpn_pk : Pk)
    (v : Vpn) (w : World) :
  vpns w !! vpn_pk = Some v →
  (raises env (Dhparam 2048) = Some Py.SoftTimeLimitExceeded →
     create_vpn_dh env vpn_pk w
     = (Returned tt,
        with_log (log w ++ [(ERROR, DhSoftLimit v vpn_pk)])
                 (with_calls (calls w ++ [Dhparam 2048]) w))
     ∧ (dh v = None →
        dh <$> vpns (create_vpn_dh env vpn_pk w).2 !! vpn_pk = Some None))
  ∧ (∀ e, raises env (Dhparam 2048) = Some e →
       calls (create_vpn_dh env vpn_pk w).2 = calls w ++ [Dhparam 2048]
       ∧ vpns (create_vpn_dh env vpn_pk w).2 = vpns w).
Proof.
  intros Hv.
  unfold create_vpn_dh, try_except_else, Vpn_objects_get, Vpn_dhparam, invoke,
    mbind, job_bind.
  rewrite Hv. split.
  - intros ->. cbn. split; [done|]. intros Hdh. by rewrite Hv, <- Hdh.
  - intros e ->. by destruct e.
Qed.

Lemma C5_dh_timeout_witness :
  create_vpn_dh slow_dh "v1" vpn_world
  = (Returned tt,
     mkWorld [] ∅ {["v1" := mkVpn "office" None]}
       [(ERROR, DhSoftLimit (mkVpn "office" None) "v1")] [Dhparam 2048] 0).
Proof.
  exact (proj1 (proj1 (C5_dh_timeout_leaves_vpn slow_dh "v1"
                         (mkVpn "office" None) vpn_world eq_refl) eq_refl)).
Defined.

(** C6: when generation succeeds and the full validation raises, that
    exception leaves the job; the calls made are the generation and the
    validation, and the Vpn table is as it was: nothing was saved. *)
Theorem C6_validation_failure_propagates (env : Collaborators) (vpn_pk : Pk)
    (v : Vpn) (e : Py.Exc) (w : World) :
  vpns w !! vpn_pk = Some v →
  raises env (Dhparam 2048) = None →
  raises env (FullClean vpn_pk (set_dh (dh_blob env 2048) v)) = Some e →
  create_vpn_dh env vpn_pk w
  = (Raised e,
     with_calls (calls w ++ [Dhparam 2048;
                   FullClean vpn_pk (set_dh (dh_blob env 2048) v)]) w)
  ∧ vpns (create_vpn_dh env vpn_pk w).2 = vpns w.
Proof.
  intros Hv Hdh Hclean.
  unfold create_vpn_dh, try_except_else, Vpn_objects_get, Vpn_dhparam, invoke,
    mbind, job_bind.
  rewrite Hv, Hdh. cbn. rewrite Hclean. cbn.
  by rewrite <- app_assoc.
Qed.

Lemma C6_validation_failure_witness :
  create_vpn_dh strict_clean "v1" vpn_world
  = (Raised Py.ValidationError,
     mkWorld [] ∅ {["v1" := mkVpn "office" None]} []
       [Dhparam 2048; FullClean "v1" (mkVpn "office" (Some "dhparams"))] 0).
Proof.
  exact (proj1 (C6_validation_failure_propagates strict_clean "v1"
                  (mkVpn "office" None) Py.ValidationError vpn_world
                  eq_refl eq_refl eq_refl)).
Defined.

(** When both steps succeed the Vpn is saved with its dh set. *)
Lemma create_vpn_dh_success (env : Collaborators) (vpn_pk : Pk)
    (v : Vpn) (w : World) :
  vpns w !! vpn_pk = Some v →
  raises env (Dhparam 2048) = None →
  raises env (FullClean vpn_pk (set_dh (dh_blob env 2048) v)) = None →
  (create_vpn_dh env vpn_pk w).1 = Returned tt
  ∧ vpns (create_vpn_dh env vpn_pk w).2 !! vpn_pk
    = Some (set_dh (dh_blob env 2048) v).
Proof.
  intros Hv Hdh Hclean.
  unfold create_vpn_dh, try_except_else, Vpn_objects_get, Vpn_dhparam, invoke,
    mbind, job_bind.
  rewrite Hv, Hdh. cbn. rewrite Hclean. cbn.
  by rewrite lookup_insert_eq.
Qed.

(** A missing Vpn is a lookup error that leaves the job. *)
Lemma create_vpn_dh_missing (env : Collaborators) (vpn_pk : Pk) (w : World) :
  vpns w !! vpn_pk = None →
  create_vpn_dh env vpn_pk w = (Raised Py.DoesNotExist, w).
Proof.
  intros Hv. unfold create_vpn_dh, Vpn_objects_get, mbind, job_bind.
  by rewrite Hv.
Qed.

(** ** VPN webhook notifier *)

Lemma append_cons (c : ascii) (a b : string) :
  String c a +:+ b = String c (a +:+ b).
Proof. reflexivity. Qed.

Lemma contains_middle (a sub b : string) : Py.contains sub (a +:+ sub +:+ b).
Proof. by exists a, b. Qed.

Lemma contains_end (a sub : string) : Py.contains sub (a +:+ sub).
Proof.
  exists a, "". f_equal. induction sub as [|c sub IH]; [done|].
  rewrite append_cons. f_equal. exact IH.
Qed.

Lemma string_app_assoc (a b c : string) : (a +:+ b) +:+ c = a +:+ b +:+ c.
Proof.
  induction a as [|x a IH]; [done|]. rewrite !append_cons. f_equal. exact IH.
Qed.

(** C7: once the request has returned a response, the job makes no
    further request and returns normally with exactly one new log
    record: an INFO record when the status is 200, otherwise an ERROR
    record whose text contains the status code in decimal and the VPN
    identifier. *)
Theorem C7_webhook_status_logged (env : Collaborators)
    (endpoint auth_token vpn_id : string) (w : World) :
  let request := RequestsPost endpoint auth_token (negb (DEBUG env)) in
  let status := status_code env endpoint auth_token (negb (DEBUG env)) in
  raises env request = None →
  ∃ entry,
    trigger_vpn_server_endpoint env endpoint auth_token vpn_id w
    = (Returned tt,
       with_log (log w ++ [entry]) (with_calls (calls w ++ [request]) w))
    ∧ (status = 200 →
       entry = (INFO, Text ("Triggered update webhook of VPN Server UUID: "
                            +:+ vpn_id)))
    ∧ (status ≠ 200 →
       ∃ msg, entry = (ERROR, Text msg)
              ∧ Py.contains (Py.str_int status) msg
              ∧ Py.contains vpn_id msg).
Proof.
  intros request status Hok.
  unfold trigger_vpn_server_endpoint, requests_post, invoke, mbind, job_bind.
  replace (if DEBUG env then false else true) with (negb (DEBUG env))
    by (by destruct (DEBUG env)).
  fold request. rewrite Hok. cbn [mret job_ret]. fold status.
  destruct (Z.eqb_spec status 200) as [Heq|Hne].
  - eexists. split; [reflexivity|]. split; [done|]. intros Hne. by destruct Hne.
  - eexists. split; [reflexivity|]. split; [intros Heq; by destruct Hne|].
    intros _. eexists. split; [reflexivity|]. split.
    + rewrite <- (string_app_assoc _ "Response status code: ").
      apply contains_middle.
    + rewrite <- !string_app_assoc. apply contains_end.
Qed.

Lemma C7_webhook_503_witness :
  ∃ msg,
    trigger_vpn_server_endpoint unavailable "https://vpn.example/hook" "secret"
      "v1" empty_world
    = (Returned tt,
       mkWorld [] ∅ ∅ [(ERROR, Text msg)]
         [RequestsPost "https://vpn.example/hook" "secret" true] 0)
    ∧ Py.contains "503" msg ∧ Py.contains "v1" msg.
Proof.
  destruct (C7_webhook_status_logged unavailable "https://vpn.example/hook"
              "secret" "v1" empty_world eq_refl)
    as (entry & Hrun & _ & Herr).
  destruct (Herr ltac:(done)) as (msg & -> & H503 & Hv1).
  exists msg. split; [exact Hrun|]. split; [exact H503 | exact Hv1].
Defined.

Example webhook_503_message :
  log (trigger_vpn_server_endpoint unavailable "https://vpn.example/hook"
         "secret" "v1" empty_world).2
  = [(ERROR, Text "Failed to update VPN Server configuration. Response status code: 503, VPN Server UUID: v1")].
Proof. by vm_compute. Qed.

(** A network-level failure of the request is not handled: it leaves
    the job and nothing is logged. *)
Lemma webhook_network_failure (env : Collaborators)
    (endpoint auth_token vpn_id : string) (e : Py.Exc) (w : World) :
  raises env (RequestsPost endpoint auth_token (negb (DEBUG env))) = Some e →
  (trigger_vpn_server_endpoint env endpoint auth_token vpn_id w).1 = Raised e
  ∧ log (trigger_vpn_server_endpoint env endpoint auth_token vpn_id w).2
    = log w.
Proof.
  intros Hfail.
  unfold trigger_vpn_server_endpoint, requests_post, invoke, mbind, job_bind.
  replace (if DEBUG env then false else true) with (negb (DEBUG env))
    by (by destruct (DEBUG env)).
  by rewrite Hfail.
Qed.

(** ** Dispatch on the model name *)

Lemma django_names_distinct : cascade_names_distinct django_names.
Proof. repeat split; discriminate. Qed.

Lemma eqb_refl_true (s : string) : String.eqb s s = true.
Proof. by apply String.eqb_eq. Qed.

Lemma eqb_false (s t : string) : s ≠ t → String.eqb s t = false.
Proof. by intros ?%String.eqb_neq. Qed.

Lemma invoke_calls (env : Collaborators) (c : Call) (w : World) :
  calls (invoke env c w).2 = calls w ++ [c].
Proof. unfold invoke. by destruct (raises env c). Qed.

Lemma invoke_outcome (env : Collaborators) (c : Call) (w : World) :
  (invoke env c w).1
  = match raises env c with None => Returned tt | Some e => Raised e end.
Proof. unfold invoke. by destruct (raises env c). Qed.

(** C9: a model name that is none of Device, DeviceGroup and Cert makes
    the change-event invalidator return normally with the world as it
    was: no invalidation call is made. *)
Theorem C9_unrecognised_kind_invalidates_nothing (env : Collaborators)
    (names : ModelNames) (instance_id : Py.Val) (model_name : string)
    (w : World) :
  model_name ≠ device_name names →
  model_name ≠ devicegroup_name names →
  model_name ≠ cert_name names →
  invalidate_devicegroup_cache_change env names instance_id model_name w
  = (Returned tt, w).
Proof.
  intros Hd Hg Hc. unfold invalidate_devicegroup_cache_change.
  by rewrite !eqb_false.
Qed.

Lemma C9_unrecognised_kind_witness :
  invalidate_devicegroup_cache_change quiet django_names (Py.VStr "42")
    "template" empty_world
  = (Returned tt, empty_world).
Proof.
  apply (C9_unrecognised_kind_invalidates_nothing quiet django_names
           (Py.VStr "42") "template" empty_world); discriminate.
Defined.

(** C8 as stated fails for the Config kind: without the backend keyword
    arguments the job raises KeyError and [manage_backend_changed] is not
    called. *)
Lemma C8_config_kind_without_backends :
  change_devices_templates quiet django_names (Py.VStr "c1") "config" ∅
    empty_world
  = (Raised (Py.KeyError "old_backend"), empty_world)
  ∧ calls (change_devices_templates quiet django_names (Py.VStr "c1")
             "config" ∅ empty_world).2 = [].
Proof. split; by vm_compute. Qed.

(** C8 (amended): an invocation makes at most one collaborator call,
    chosen by the model name alone.  The Device kind calls
    [manage_devices_group_templates]; the DeviceGroup kind calls
    [manage_group_templates]; the Config kind calls
    [manage_backend_changed] when both old_backend and backend are among
    the keyword arguments, and otherwise raises KeyError without a call;
    any other name makes no call and returns normally. *)
Theorem C8_cascade_dispatch (env : Collaborators) (names : ModelNames)
    (instance_id : Py.Val) (model_name : string)
    (kwargs : gmap string Py.Val) (w : World) :
  cascade_names_distinct names →
  let r := change_devices_templates env names instance_id model_name kwargs w in
  (length (calls r.2) ≤ length (calls w) + 1)%nat
  ∧ (model_name = device_name names →
       calls r.2 = calls w ++
         [ManageDevicesGroupTemplates instance_id
            (Py.get kwargs "old_group_id") (Py.get kwargs "group_id")])
  ∧ (model_name = devicegroup_name names →
       calls r.2 = calls w ++
         [ManageGroupTemplates instance_id
            (Py.get kwargs "old_templates") (Py.get kwargs "templates")])
  ∧ (model_name = config_name names →
       match kwargs !! "old_backend", kwargs !! "backend" with
       | Some old_backend, Some backend =>
           calls r.2 = calls w ++
             [ManageBackendChanged instance_id old_backend backend
                (delete "backend" (delete "old_backend" kwargs))]
       | _, _ => ∃ k, r = (Raised (Py.KeyError k), w)
       end)
  ∧ (model_name ≠ device_name names →
     model_name ≠ devicegroup_name names →
     model_name ≠ config_name names →
       r = (Returned tt, w)).
Proof.
  intros (Hdg & Hdc & Hgc) r. subst r. unfold change_devices_templates.
  split; [|split; [|split; [|split]]].
  - destruct (String.eqb model_name (device_name names));
      [rewrite invoke_calls, length_app; cbn; lia|].
    destruct (String.eqb model_name (devicegroup_name names));
      [rewrite invoke_calls, length_app; cbn; lia|].
    destruct (String.eqb model_name (config_name names)); [|cbn; lia].
    unfold mbind, job_bind, lift, pop.
    destruct (kwargs !! "old_backend"); [|cbn; lia].
    destruct (delete "old_backend" kwargs !! "backend"); [|cbn; lia].
    rewrite invoke_calls, length_app; cbn; lia.
  - intros ->. by rewrite eqb_refl_true, invoke_calls.
  - intros ->. rewrite eqb_false by done.
    by rewrite eqb_refl_true, invoke_calls.
  - intros ->. rewrite !eqb_false, eqb_refl_true by done.
    unfold mbind, job_bind, lift, pop.
    destruct (kwargs !! "old_backend") as [ob|]; [|by eexists].
    rewrite lookup_delete_ne by done.
    destruct (kwargs !! "backend") as [b|]; [|by eexists].
    by rewrite invoke_calls.
  - intros Hd Hg Hc. by rewrite !eqb_false.
Qed.

Lemma C8_cascade_dispatch_witness :
  calls (change_devices_templates quiet django_names (Py.VStr "d1") "device"
           ∅ empty_world).2
  = [ManageDevicesGroupTemplates (Py.VStr "d1") Py.VNone Py.VNone]
  ∧ calls (change_devices_templates quiet django_names (Py.VStr "c1") "config"
             backend_kwargs empty_world).2
    = [ManageBackendChanged (Py.VStr "c1") (Py.VStr "netjsonconfig.OpenWrt")
         (Py.VStr "netjsonconfig.OpenWisp")
         (delete "backend" (delete "old_backend" backend_kwargs))]
  ∧ change_devices_templates quiet django_names (Py.VStr "t1") "template"
      ∅ empty_world = (Returned tt, empty_world).
Proof.
  split; [|split].
  - exact (proj1 (proj2 (C8_cascade_dispatch quiet django_names (Py.VStr "d1")
                           "device" ∅ empty_world django_names_distinct))
                 eq_refl).
  - exact (proj1 (proj2 (proj2 (proj2
             (C8_cascade_dispatch quiet django_names (Py.VStr "c1") "config"
                backend_kwargs empty_world django_names_distinct)))) eq_refl).
  - apply (proj2 (proj2 (proj2 (proj2
             (C8_cascade_dispatch quiet django_names (Py.VStr "t1") "template"
                ∅ empty_world django_names_distinct))))); discriminate.
Defined.

(** C10: the Config kind raises KeyError, and calls no collaborator,
    when old_backend or backend is missing from the keyword arguments;
    the Device and DeviceGroup kinds make their call whatever the
    keyword arguments are, pass None for each one that is missing, and
    answer what the collaborator answers. *)
Theorem C10_missing_keywords (env : Collaborators) (names : ModelNames)
    (instance_id : Py.Val) (kwargs : gmap string Py.Val) (w : World) :
  cascade_names_distinct names →
  (kwargs !! "old_backend" = None ∨ kwargs !! "backend" = None →
     ∃ k, (k = "old_backend" ∨ k = "backend")
          ∧ change_devices_templates env names instance_id (config_name names)
              kwargs w = (Raised (Py.KeyError k), w))
  ∧ (∃ old_group_ids group_id,
       let c := ManageDevicesGroupTemplates instance_id old_group_ids group_id in
       change_devices_templates env names instance_id (device_name names)
         kwargs w = invoke env c w
       ∧ (kwargs !! "old_group_id" = None → old_group_ids = Py.VNone)
       ∧ (kwargs !! "group_id" = None → group_id = Py.VNone))
  ∧ (∃ old_template_ids template_ids,
       let c := ManageGroupTemplates instance_id old_template_ids template_ids in
       change_devices_templates env names instance_id (devicegroup_name names)
         kwargs w = invoke env c w
       ∧ (kwargs !! "old_templates" = None → old_template_ids = Py.VNone)
       ∧ (kwargs !! "templates" = None → template_ids = Py.VNone)).
Proof.
  intros (Hdg & Hdc & Hgc). unfold change_devices_templates.
  split; [|split].
  - intros Hmiss. rewrite !eqb_false, eqb_refl_true by done.
    unfold mbind, job_bind, lift, pop.
    destruct (kwargs !! "old_backend") as [ob|] eqn:Hob.
    + destruct Hmiss as [|Hb]; [done|].
      rewrite lookup_delete_ne, Hb by done. exists "backend". auto.
    + exists "old_backend". auto.
  - rewrite eqb_refl_true. eexists _, _. split; [reflexivity|].
    unfold Py.get. split; by intros ->.
  - rewrite eqb_false, eqb_refl_true by done. eexists _, _.
    split; [reflexivity|]. unfold Py.get. split; by intros ->.
Qed.

Lemma C10_missing_keywords_witness :
  (∃ k, change_devices_templates quiet django_names (Py.VStr "c1") "config"
          (<["old_backend" := Py.VStr "netjsonconfig.OpenWrt"]> ∅) empty_world
        = (Raised (Py.KeyError k), empty_world))
  ∧ change_devices_templates quiet django_names (Py.VStr "d1") "device" ∅
      empty_world
    = (Returned tt,
       with_calls [ManageDevicesGroupTemplates (Py.VStr "d1") Py.VNone Py.VNone]
                  empty_world).
Proof.
  pose proof (C10_missing_keywords quiet django_names (Py.VStr "c1")
                (<["old_backend" := Py.VStr "netjsonconfig.OpenWrt"]> ∅)
                empty_world django_names_distinct) as [Hcfg _].
  pose proof (C10_missing_keywords quiet django_names (Py.VStr "d1") ∅
                empty_world django_names_distinct) as (_ & Hdev & _).
  split.
  - destruct (Hcfg (or_intror eq_refl)) as (k & _ & Hk). by exists k.
  - destruct Hdev as (og & g & Hrun & Hog & Hg).
    etrans; [exact Hrun|]. rewrite (Hog eq_refl), (Hg eq_refl). reflexivity.
Defined.


(** ** Further properties of the discovery reconciler *)

(** A property of worlds that every step of a loop keeps is kept by the
    loop, whether it ends normally or by an exception. *)
Lemma for_each_keeps {A} (body : A → Job unit) (R : World → World → Prop) :
  (∀ w, R w w) →
  (∀ w1 w2 w3, R w1 w2 → R w2 w3 → R w1 w3) →
  (∀ x w, R w (body x w).2) →
  ∀ l w, R w (for_each body l w).2.
Proof.
  intros Hrefl Htrans Hbody l. induction l as [|x l IH]; intros w.
  - apply Hrefl.
  - cbn. unfold mbind, job_bind. pose proof (Hbody x w) as Hx.
    destruct (body x w) as [[[]|e] w1]; cbn in *.
    + eapply Htrans; [exact Hx|apply IH].
    + exact Hx.
Qed.

(** What the table lookup returns is a row of the table. *)
Lemma rows_with_ip_elem (addr : string) (rows : list AdoptableDevice)
    (i : nat) (d : AdoptableDevice) :
  (i, d) ∈ rows_with_ip addr rows → rows !! i = Some d ∧ ip d = addr.
Proof.
  unfold rows_with_ip. rewrite list_elem_of_filter. intros [Hip Hin].
  split; [|exact Hip].
  apply elem_of_lookup_imap in Hin as (j & y & Heq & Hj). by simplify_eq.
Qed.

Lemma insert_last_seen_identity (rows : list AdoptableDevice) (i : nat)
    (d : AdoptableDevice) (now : Time) :
  rows !! i = Some d →
  identity_of <$> <[i := set_last_seen now d]> rows = identity_of <$> rows.
Proof.
  intros Hi. rewrite list_fmap_insert. apply list_insert_id.
  by rewrite list_lookup_fmap, Hi.
Qed.

(** One line, with Django's manager, changes no row's identity. *)
Lemma reconcile_keeps_identity (env : Collaborators) (line : string) (w : World) :
  identity_of <$> adoptable (reconcile env django_get line w).2
  = identity_of <$> adoptable w.
Proof.
  unfold reconcile. destruct (Py.startswith "=" line); [|done]. cbn zeta.
  unfold mbind, job_bind, lift.
  destruct (parse_txt _ _) as [records|e]; [|done].
  destruct (incomplete records); [done|].
  unfold datetime_now. destruct (Py.item _ _) as [addr|e]; [|done].
  unfold AdoptableDevice_objects_get, django_get. cbn [adoptable with_ticks].
  destruct (rows_with_ip addr (adoptable w)) as [|[i d] [|? ?]] eqn:Hrows;
    [done| |done].
  cbn. apply insert_last_seen_identity.
  apply (rows_with_ip_elem addr). rewrite Hrows. apply list_elem_of_here.
Qed.

(** X2: with Django's manager, whatever the input and whatever the
    outcome, the table keeps its rows: their number, and each row's
    mac_address, adoption_key, os_version, ip and first_seen.  The loop
    only ever rewrites [last_seen], and so does the job, which stops
    before the loop. *)
Theorem run_only_rewrites_last_seen (env : Collaborators)
    (lines : list string) (w : World) :
  identity_of <$> adoptable (reconcile_lines env django_get lines w).2
  = identity_of <$> adoptable w
  ∧ identity_of <$> adoptable (update_adoptable_antenna_list env django_get w).2
    = identity_of <$> adoptable w.
Proof.
  split.
  - apply (for_each_keeps (reconcile env django_get)
             (λ w w', identity_of <$> adoptable w' = identity_of <$> adoptable w)).
    + done.
    + intros w1 w2 w3 H12 H23. by rewrite H23.
    + intros line w0. apply reconcile_keeps_identity.
  - by rewrite update_adoptable_antenna_list_raises.
Qed.

(** X25: every run of the discovery job ends with an exception at line
    22, before the loop: what [check_output] raises when it raises, and
    otherwise the TypeError of splitting its bytes with a str.  The one
    call made is [check_output] with the command as a single string; the
    tables, the log and the clock are as before. *)
Theorem discovery_job_stops_at_line_22 (env : Collaborators)
    (get : Manager) (w : World) :
  let r := update_adoptable_antenna_list env get w in
  r.1 = Raised (match raises env (CheckOutput avahi_command) with
                | Some e => e
                | None => Py.TypeError
                end)
  ∧ calls r.2 = calls w ++ [CheckOutput avahi_command]
  ∧ same_stores w r.2.
Proof.
  cbn zeta. rewrite update_adoptable_antenna_list_raises.
  by destruct (raises env (CheckOutput avahi_command)).
Qed.

(** X5: a resolved line that passed the completeness test has a field
    7, so the index [antenna[7]] of the lookup cannot raise. *)
Theorem complete_line_has_field_7 (line : string)
    (records : gmap string string) :
  parse_txt (drop 9 (Py.split ";" line)) ∅ = Returned records →
  incomplete records = false →
  ∃ addr, Py.item (Py.split ";" line) 7 = Returned addr.
Proof.
  intros Hp Hc. destruct (complete_has_address line records Hp Hc) as [addr Ha].
  exists addr. unfold Py.item. by rewrite Ha.
Qed.

Lemma complete_line_has_field_7_witness :
  ∃ addr, Py.item (Py.split ";" announcement) 7 = Returned addr.
Proof.
  apply (complete_line_has_field_7 announcement announcement_records);
    by vm_compute.
Defined.

Lemma cut_key_value (sep : ascii) (k v : string) :
  Py.cut sep k = None → Py.cut sep (k +:+ String sep v) = Some (k, v).
Proof.
  induction k as [|c k IH]; intros Hk.
  - change (Py.cut sep (String sep v) = Some ("", v)).
    cbn. by rewrite Ascii.eqb_refl.
  - rewrite append_cons. cbn in *. destruct (Ascii.eqb c sep); [done|].
    destruct (Py.cut sep k) as [[? ?]|]; [done|]. by rewrite IH.
Qed.

Lemma parse_txt_app (l1 l2 : list string) (records : gmap string string) :
  parse_txt (l1 ++ l2) records
  = match parse_txt l1 records with
    | Returned records1 => parse_txt l2 records1
    | Raised e => Raised e
    end.
Proof.
  revert records. induction l1 as [|txt l1 IH]; intros records; [done|].
  cbn. destruct (Py.item _ 1) as [v|e]; [|done].
  destruct (Py.item _ 0) as [k|e]; [|done]. apply IH.
Qed.

(** X6: a TXT field [k=v] whose key has no '=' records [v] under [k],
    whole even when [v] contains '=' itself, and replaces what earlier
    fields recorded under [k]: the last field of a key wins. *)
Theorem last_txt_field_wins (txts : list string) (k v : string)
    (records records1 : gmap string string) :
  Py.cut "=" k = None →
  parse_txt txts records = Returned records1 →
  parse_txt (txts ++ [k +:+ "=" +:+ v]) records
  = Returned (<[k := v]> records1).
Proof.
  intros Hk Hp. rewrite parse_txt_app, Hp.
  rewrite (parse_txt_cons_cut _ k v); [done|]. by apply cut_key_value.
Qed.

Lemma last_txt_field_wins_witness :
  parse_txt (["mac=old"; "version=3.0"] ++ ["mac" +:+ "=" +:+ "a=b"]) ∅
  = Returned (<["mac" := "a=b"]>
                (<["version" := "3.0"]> (<["mac" := "old"]> ∅))).
Proof.
  apply (last_txt_field_wins ["mac=old"; "version=3.0"] "mac" "a=b" ∅);
    reflexivity.
Defined.

(** ** Further properties of the template and VPN jobs *)

(** X9: for an existing template the recompute operation decides the
    outcome: when it returns the job returns and logs nothing; when it
    raises the soft time limit the job logs one error and returns
    normally; any other exception leaves the job unlogged.  In each case
    the trace has grown by the one recompute call. *)
Theorem recompute_outcome_decides (env : Collaborators) (template_pk : Pk)
    (t : Template) (w : World) :
  templates w !! template_pk = Some t →
  let w1 := with_calls (calls w ++ [UpdateRelatedConfigStatus template_pk]) w in
  update_template_related_config_status env template_pk w
  = match raises env (UpdateRelatedConfigStatus template_pk) with
    | None => (Returned tt, w1)
    | Some Py.SoftTimeLimitExceeded =>
        (Returned tt,
         with_log (log w ++ [(ERROR, TemplateSoftLimit t template_pk)]) w1)
    | Some e => (Raised e, w1)
    end.
Proof.
  intros Ht.
  unfold update_template_related_config_status, try_except, try_except_else,
    Template_objects_get, invoke.
  rewrite Ht. destruct (raises env _) as [e|]; [|done]. by destruct e.
Qed.

Lemma recompute_outcome_witness :
  update_template_related_config_status slow_recompute "t1" template_world
  = (Returned tt,
     mkWorld [] {["t1" := mkTemplate "radio"]} ∅
       [(ERROR, TemplateSoftLimit (mkTemplate "radio") "t1")]
       [UpdateRelatedConfigStatus "t1"] 0).
Proof.
  exact (recompute_outcome_decides slow_recompute "t1" (mkTemplate "radio")
           template_world eq_refl).
Defined.

(** X10: when generation and validation both succeed the job returns
    normally, logs nothing, and the Vpn is saved with its dh set to the
    generated parameters (replacing a dh it may have had); every other
    Vpn is as before. *)
Theorem create_vpn_dh_saves_dh (env : Collaborators) (vpn_pk : Pk)
    (v : Vpn) (w : World) :
  vpns w !! vpn_pk = Some v →
  raises env (Dhparam 2048) = None →
  raises env (FullClean vpn_pk (set_dh (dh_blob env 2048) v)) = None →
  let v' := set_dh (dh_blob env 2048) v in
  create_vpn_dh env vpn_pk w
  = (Returned tt,
     with_vpns (<[vpn_pk := v']> (vpns w))
       (with_calls (calls w ++ [Dhparam 2048; FullClean vpn_pk v']) w))
  ∧ (∀ other, other ≠ vpn_pk →
       vpns (create_vpn_dh env vpn_pk w).2 !! other = vpns w !! other).
Proof.
  intros Hv Hdh Hclean v'. subst v'.
  assert (Hrun : create_vpn_dh env vpn_pk w
          = (Returned tt,
             with_vpns (<[vpn_pk := set_dh (dh_blob env 2048) v]> (vpns w))
               (with_calls (calls w ++ [Dhparam 2048;
                  FullClean vpn_pk (set_dh (dh_blob env 2048) v)]) w))).
  { unfold create_vpn_dh, try_except_else, Vpn_objects_get, Vpn_dhparam,
      invoke, mbind, job_bind.
    rewrite Hv, Hdh. cbn. rewrite Hclean. cbn.
    by rewrite <- app_assoc. }
  split; [exact Hrun|]. intros other Hne. rewrite Hrun. cbn.
  by rewrite lookup_insert_ne.
Qed.

Lemma create_vpn_dh_saves_dh_witness :
  create_vpn_dh quiet "v1" vpn_world
  = (Returned tt,
     mkWorld [] ∅ {["v1" := mkVpn "office" (Some "dhparams")]} []
       [Dhparam 2048; FullClean "v1" (mkVpn "office" (Some "dhparams"))] 0).
Proof.
  etrans.
  - exact (proj1 (create_vpn_dh_saves_dh quiet "v1" (mkVpn "office" None)
                    vpn_world eq_refl eq_refl eq_refl)).
  - by vm_compute.
Defined.

(** X11: for an identifier that names no Vpn the lookup error leaves
    the job at once: no generation is attempted, nothing is logged, the
    world is as it was. *)
Theorem create_vpn_dh_missing_vpn (env : Collaborators) (vpn_pk : Pk)
    (w : World) :
  vpns w !! vpn_pk = None →
  create_vpn_dh env vpn_pk w = (Raised Py.DoesNotExist, w).
Proof.
  intros Hv. unfold create_vpn_dh, Vpn_objects_get, mbind, job_bind.
  by rewrite Hv.
Qed.

Lemma create_vpn_dh_missing_vpn_witness :
  create_vpn_dh quiet "v2" vpn_world = (Raised Py.DoesNotExist, vpn_world).
Proof.
  exact (create_vpn_dh_missing_vpn quiet "v2" vpn_world eq_refl).
Defined.

(** X12: only the soft time limit is swallowed: any other exception of
    the generation leaves the job, unlogged, with nothing validated or
    saved. *)
Theorem create_vpn_dh_other_failure (env : Collaborators) (vpn_pk : Pk)
    (v : Vpn) (e : Py.Exc) (w : World) :
  vpns w !! vpn_pk = Some v →
  raises env (Dhparam 2048) = Some e →
  e ≠ Py.SoftTimeLimitExceeded →
  create_vpn_dh env vpn_pk w
  = (Raised e, with_calls (calls w ++ [Dhparam 2048]) w).
Proof.
  intros Hv Hdh Hne.
  unfold create_vpn_dh, try_except_else, Vpn_objects_get, Vpn_dhparam, invoke,
    mbind, job_bind.
  rewrite Hv, Hdh. by destruct e.
Qed.

Lemma create_vpn_dh_other_failure_witness :
  create_vpn_dh broken "v1" vpn_world
  = (Raised (Py.OtherError "OperationalError"),
     with_calls [Dhparam 2048] vpn_world).
Proof.
  apply (create_vpn_dh_other_failure broken "v1" (mkVpn "office" None)
           (Py.OtherError "OperationalError") vpn_world eq_refl eq_refl).
  discriminate.
Defined.

(** ** Further properties of the cache invalidators *)

Lemma django_cache_names_distinct : cache_names_distinct django_names.
Proof. repeat split; discriminate. Qed.


(** X13: the change invalidator makes exactly the one call of the kind
    the model name selects, with the instance identifier, and answers
    what that call answers. *)
Theorem cache_change_routes_by_kind (env : Collaborators) (names : ModelNames)
    (instance_id : Py.Val) (w : World) :
  cache_names_distinct names →
  invalidate_devicegroup_cache_change env names instance_id
    (device_name names) w
  = invoke env (DeviceChangeInvalidatesCache instance_id) w
  ∧ invalidate_devicegroup_cache_change env names instance_id
      (devicegroup_name names) w
    = invoke env (DevicegroupChangeInvalidatesCache instance_id) w
  ∧ invalidate_devicegroup_cache_change env names instance_id
      (cert_name names) w
    = invoke env (CertificateChangeInvalidatesCache instance_id) w.
Proof.
  intros (Hdg & Hdc & Hgc). unfold invalidate_devicegroup_cache_change.
  split; [|split].
  - by rewrite eqb_refl_true.
  - rewrite eqb_false by done. by rewrite eqb_refl_true.
  - rewrite !eqb_false by done. by rewrite eqb_refl_true.
Qed.

Lemma cache_change_routes_witness :
  invalidate_devicegroup_cache_change quiet django_names (Py.VStr "c7")
    "cert" empty_world
  = (Returned tt,
     with_calls [CertificateChangeInvalidatesCache (Py.VStr "c7")] empty_world).
Proof.
  exact (proj2 (proj2 (cache_change_routes_by_kind quiet django_names
                         (Py.VStr "c7") empty_world
                         django_cache_names_distinct))).
Defined.

(** X14: the VPN client-cache invalidator needs the Vpn to exist: for a
    missing one the lookup error leaves the job before any call; for an
    existing one it makes the one invalidation call and answers what
    that call answers. *)
Theorem vpn_cache_needs_vpn (env : Collaborators) (vpn_pk : Pk) (w : World) :
  (vpns w !! vpn_pk = None →
     invalidate_vpn_server_devices_cache_change env vpn_pk w
     = (Raised Py.DoesNotExist, w))
  ∧ (is_Some (vpns w !! vpn_pk) →
     invalidate_vpn_server_devices_cache_change env vpn_pk w
     = invoke env (InvalidateClientsCache vpn_pk) w).
Proof.
  unfold invalidate_vpn_server_devices_cache_change, Vpn_objects_get,
    mbind, job_bind.
  split.
  - by intros ->.
  - by intros [v ->].
Qed.

Lemma vpn_cache_needs_vpn_witness :
  invalidate_vpn_server_devices_cache_change quiet "v2" vpn_world
  = (Raised Py.DoesNotExist, vpn_world)
  ∧ invalidate_vpn_server_devices_cache_change quiet "v1" vpn_world
    = (Returned tt, with_calls [InvalidateClientsCache "v1"] vpn_world).
Proof.
  split.
  - exact (proj1 (vpn_cache_needs_vpn quiet "v2" vpn_world) eq_refl).
  - exact (proj2 (vpn_cache_needs_vpn quiet "v1" vpn_world)
             (ex_intro _ _ eq_refl)).
Defined.

(** X15: the delete invalidator, for the DeviceGroup kind, invalidates
    by the organization_id keyword argument and raises KeyError without
    a call when it is missing; the instance identifier and any other
    keyword argument play no part. *)
Theorem group_delete_needs_organization (env : Collaborators)
    (names : ModelNames) (instance_id : Py.Val)
    (kwargs : gmap string Py.Val) (w : World) :
  invalidate_devicegroup_cache_delete env names instance_id
    (devicegroup_name names) kwargs w
  = match kwargs !! "organization_id" with
    | Some org => invoke env (DevicegroupDeleteInvalidatesCache org) w
    | None => (Raised (Py.KeyError "organization_id"), w)
    end.
Proof.
  unfold invalidate_devicegroup_cache_delete. rewrite eqb_refl_true.
  unfold mbind, job_bind, lift, Py.getitem.
  by destruct (kwargs !! "organization_id").
Qed.

(** X16: for the Cert kind the delete invalidator needs both
    organization_id and common_name; it raises KeyError for the first
    one missing, organization_id before common_name, without a call. *)
Theorem cert_delete_needs_both_keys (env : Collaborators)
    (names : ModelNames) (instance_id : Py.Val)
    (kwargs : gmap string Py.Val) (w : World) :
  devicegroup_name names ≠ cert_name names →
  invalidate_devicegroup_cache_delete env names instance_id
    (cert_name names) kwargs w
  = match kwargs !! "organization_id", kwargs !! "common_name" with
    | Some org, Some cn =>
        invoke env (CertificateDeleteInvalidatesCache org cn) w
    | None, _ => (Raised (Py.KeyError "organization_id"), w)
    | Some _, None => (Raised (Py.KeyError "common_name"), w)
    end.
Proof.
  intros Hgc. unfold invalidate_devicegroup_cache_delete.
  rewrite eqb_false, eqb_refl_true by done.
  unfold mbind, job_bind, lift, Py.getitem.
  destruct (kwargs !! "organization_id"); [|done].
  by destruct (kwargs !! "common_name").
Qed.

Lemma cert_delete_needs_both_keys_witness :
  invalidate_devicegroup_cache_delete quiet django_names (Py.VStr "c7")
    "cert" cert_kwargs empty_world
  = (Returned tt,
     with_calls [CertificateDeleteInvalidatesCache (Py.VStr "org1")
                   (Py.VStr "ap-17")] empty_world)
  ∧ invalidate_devicegroup_cache_delete quiet django_names (Py.VStr "c7")
      "cert" (delete "organization_id" cert_kwargs) empty_world
    = (Raised (Py.KeyError "organization_id"), empty_world).
Proof.
  split.
  - etrans.
    + apply (cert_delete_needs_both_keys quiet django_names (Py.VStr "c7")
               cert_kwargs empty_world). discriminate.
    + by vm_compute.
  - etrans.
    + apply (cert_delete_needs_both_keys quiet django_names (Py.VStr "c7")
               (delete "organization_id" cert_kwargs) empty_world).
      discriminate.
    + by vm_compute.
Defined.

(** X17: the delete invalidator handles only DeviceGroup and Cert: any
    other model name, the Device name included, returns normally with
    the world as it was, whatever the keyword arguments. *)
Theorem delete_of_other_kind_does_nothing (env : Collaborators)
    (names : ModelNames) (instance_id : Py.Val) (model_name : string)
    (kwargs : gmap string Py.Val) (w : World) :
  model_name ≠ devicegroup_name names →
  model_name ≠ cert_name names →
  invalidate_devicegroup_cache_delete env names instance_id model_name
    kwargs w
  = (Returned tt, w).
Proof.
  intros Hg Hc. unfold invalidate_devicegroup_cache_delete.
  by rewrite !eqb_false.
Qed.

Lemma delete_of_device_does_nothing_witness :
  invalidate_devicegroup_cache_delete quiet django_names (Py.VStr "d1")
    "device" cert_kwargs empty_world
  = (Returned tt, empty_world).
Proof.
  apply (delete_of_other_kind_does_nothing quiet django_names (Py.VStr "d1")
           "device" cert_kwargs empty_world); discriminate.
Defined.

(** ** Further properties of the webhook notifier *)

(** X18: every run makes exactly one request, to the given endpoint,
    with the token as the key parameter and certificate verification
    switched off exactly when DEBUG is set; this holds whether the
    request fails, answers 200 or answers anything else. *)
Theorem webhook_makes_one_request (env : Collaborators)
    (endpoint auth_token vpn_id : string) (w : World) :
  calls (trigger_vpn_server_endpoint env endpoint auth_token vpn_id w).2
  = calls w ++ [RequestsPost endpoint auth_token (negb (DEBUG env))].
Proof.
  unfold trigger_vpn_server_endpoint, requests_post, invoke, mbind, job_bind.
  replace (if DEBUG env then false else true) with (negb (DEBUG env))
    by (by destruct (DEBUG env)).
  destruct (raises env _); [done|]. cbn [mret job_ret].
  by destruct (_ =? 200).
Qed.

(** X19: an exception of the request itself is not handled: it leaves
    the job and nothing is logged. *)
Theorem webhook_request_failure_propagates (env : Collaborators)
    (endpoint auth_token vpn_id : string) (e : Py.Exc) (w : World) :
  raises env (RequestsPost endpoint auth_token (negb (DEBUG env))) = Some e →
  trigger_vpn_server_endpoint env endpoint auth_token vpn_id w
  = (Raised e,
     with_calls (calls w ++ [RequestsPost endpoint auth_token
                               (negb (DEBUG env))]) w).
Proof.
  intros Hfail.
  unfold trigger_vpn_server_endpoint, requests_post, invoke, mbind, job_bind.
  replace (if DEBUG env then false else true) with (negb (DEBUG env))
    by (by destruct (DEBUG env)).
  by rewrite Hfail.
Qed.

Lemma webhook_request_failure_witness :
  trigger_vpn_server_endpoint broken "https://vpn.example/hook" "secret" "v1"
    empty_world
  = (Raised (Py.OtherError "OperationalError"),
     with_calls [RequestsPost "https://vpn.example/hook" "secret" false]
                empty_world).
Proof.
  exact (webhook_request_failure_propagates broken "https://vpn.example/hook"
           "secret" "v1" (Py.OtherError "OperationalError") empty_world
           eq_refl).
Defined.

(** ** Further properties of the template cascade manager *)

(** X20: for the Config kind with both backends given, the job makes the
    one call to [manage_backend_changed] and answers what it answers;
    the keyword arguments forwarded to it no longer hold old_backend and
    backend, and hold every other keyword argument unchanged. *)
Theorem config_kind_forwards_other_kwargs (env : Collaborators)
    (names : ModelNames) (instance_id old_backend backend : Py.Val)
    (kwargs : gmap string Py.Val) (w : World) :
  cascade_names_distinct names →
  kwargs !! "old_backend" = Some old_backend →
  kwargs !! "backend" = Some backend →
  ∃ forwarded,
    change_devices_templates env names instance_id (config_name names)
      kwargs w
    = invoke env (ManageBackendChanged instance_id old_backend backend
                    forwarded) w
    ∧ forwarded !! "old_backend" = None
    ∧ forwarded !! "backend" = None
    ∧ (∀ k, k ≠ "old_backend" → k ≠ "backend" →
            forwarded !! k = kwargs !! k).
Proof.
  intros (Hdg & Hdc & Hgc) Hob Hb.
  exists (delete "backend" (delete "old_backend" kwargs)).
  split; [|split; [|split]].
  - unfold change_devices_templates.
    rewrite !eqb_false, eqb_refl_true by done.
    unfold mbind, job_bind, lift, pop. rewrite Hob.
    by rewrite lookup_delete_ne, Hb.
  - rewrite lookup_delete_ne by done. apply lookup_delete_eq.
  - apply lookup_delete_eq.
  - intros k Hk1 Hk2. by rewrite !lookup_delete_ne.
Qed.

Lemma config_kind_forwards_witness :
  ∃ forwarded,
    change_devices_templates quiet django_names (Py.VStr "c1") "config"
      backend_kwargs empty_world
    = (Returned tt,
       with_calls [ManageBackendChanged (Py.VStr "c1")
                     (Py.VStr "netjsonconfig.OpenWrt")
                     (Py.VStr "netjsonconfig.OpenWisp") forwarded]
                  empty_world)
    ∧ forwarded !! "reason" = Some (Py.VStr "edit")
    ∧ forwarded !! "backend" = None.
Proof.
  destruct (config_kind_forwards_other_kwargs quiet django_names
              (Py.VStr "c1") (Py.VStr "netjsonconfig.OpenWrt")
              (Py.VStr "netjsonconfig.OpenWisp") backend_kwargs empty_world
              django_names_distinct eq_refl eq_refl)
    as (forwarded & Hrun & _ & Hb & Hrest).
  exists forwarded. split; [exact Hrun|]. split; [|exact Hb].
  rewrite (Hrest "reason") by discriminate. reflexivity.
Defined.

(** X21: the Device and DeviceGroup kinds read only their two keyword
    arguments: two invocations whose keyword arguments agree on them do
    the same, whatever else is passed. *)
Theorem device_kinds_ignore_other_kwargs (env : Collaborators)
    (names : ModelNames) (instance_id : Py.Val)
    (kwargs kwargs' : gmap string Py.Val) (w : World) :
  device_name names ≠ devicegroup_name names →
  (kwargs !! "old_group_id" = kwargs' !! "old_group_id" →
   kwargs !! "group_id" = kwargs' !! "group_id" →
     change_devices_templates env names instance_id (device_name names)
       kwargs w
     = change_devices_templates env names instance_id (device_name names)
         kwargs' w)
  ∧ (kwargs !! "old_templates" = kwargs' !! "old_templates" →
     kwargs !! "templates" = kwargs' !! "templates" →
       change_devices_templates env names instance_id
         (devicegroup_name names) kwargs w
       = change_devices_templates env names instance_id
           (devicegroup_name names) kwargs' w).
Proof.
  intros Hdg. unfold change_devices_templates, Py.get. split.
  - intros -> ->. by rewrite eqb_refl_true.
  - intros -> ->. rewrite eqb_false by done. by rewrite eqb_refl_true.
Qed.

Lemma device_kinds_ignore_witness :
  change_devices_templates quiet django_names (Py.VStr "d1") "device"
    cert_kwargs empty_world
  = change_devices_templates quiet django_names (Py.VStr "d1") "device"
      backend_kwargs empty_world.
Proof.
  apply (proj1 (device_kinds_ignore_other_kwargs quiet django_names
                  (Py.VStr "d1") cert_kwargs backend_kwargs empty_world
                  ltac:(discriminate))); reflexivity.
Defined.



(** X24: the DH job never saves an unvalidated Vpn: whatever the
    identifier and the collaborators do, either the Vpn table is as it
    was, or the Vpn existed, generation and validation both returned,
    and the only entry written is that Vpn with its dh set. *)
Theorem vpn_table_changes_only_after_validation (env : Collaborators)
    (vpn_pk : Pk) (w : World) :
  vpns (create_vpn_dh env vpn_pk w).2 = vpns w
  ∨ ∃ v, vpns w !! vpn_pk = Some v
         ∧ raises env (Dhparam 2048) = None
         ∧ raises env (FullClean vpn_pk (set_dh (dh_blob env 2048) v)) = None
         ∧ vpns (create_vpn_dh env vpn_pk w).2
           = <[vpn_pk := set_dh (dh_blob env 2048) v]> (vpns w).
Proof.
  unfold create_vpn_dh, try_except_else, Vpn_objects_get, Vpn_dhparam, invoke,
    mbind, job_bind.
  destruct (vpns w !! vpn_pk) as [v|] eqn:Hv; [|by left].
  destruct (raises env (Dhparam 2048)) as [e|] eqn:Hdh.
  { left. by destruct e. }
  cbn.
  destruct (raises env (FullClean vpn_pk (set_dh (dh_blob env 2048) v)))
    as [e|] eqn:Hclean; [by left|].
  right. exists v. by repeat split.
Qed.
